(** * SparkSubmitOperator: a shallow embedding

    Source: [airflow/providers/apache/spark/operators/spark_submit.py].

    The operator is a configuration bag with one lazily created collaborator,
    the [SparkSubmitHook].  The embedding keeps the operator's fields and
    methods under the names the Python class gives them, threads the mutable
    state ([self], the object-identity counter, the log of calls made on the
    hook and the log of operating-system events) through a small
    state-and-exception monad, and records every call that crosses the
    operator/hook boundary so that statements about "what reaches the hook"
    are statements about that log. *)

From Stdlib Require Import String ZArith List Bool Lia.
Import ListNotations.
Open Scope string_scope.
Open Scope list_scope.

Set Implicit Arguments.
#[local] Set Warnings "-register-all".

(** ** Python values *)

(** Values of the fields annotated [Any] in the source: the values of the
    [conf] and [env_vars] dictionaries and the elements of
    [application_args]. *)
Inductive PyVal : Type :=
| PyNone
| PyBool (b : bool)
| PyInt (z : Z)
| PyStr (s : string)
| PyList (l : list PyVal).

(** [Dict[str, Any]]: insertion ordered, so an association list. *)
Definition PyDict : Type := list (string * PyVal).

(** The [context] argument of [execute] (a mapping built by the host). *)
Definition Context : Type := PyDict.

(** ** The hook's constructor arguments

    One field per keyword of the call [SparkSubmitHook(conf=..., ...)] in
    [_get_hook], in the order of that call. *)
Record HookKwargs : Type := mkHookKwargs {
  hk_conf : option PyDict;
  hk_conn_id : string;
  hk_files : option string;
  hk_py_files : option string;
  hk_archives : option string;
  hk_driver_class_path : option string;
  hk_jars : option string;
  hk_java_class : option string;
  hk_packages : option string;
  hk_exclude_packages : option string;
  hk_repositories : option string;
  hk_total_executor_cores : option Z;
  hk_executor_cores : option Z;
  hk_executor_memory : option string;
  hk_driver_memory : option string;
  hk_keytab : option string;
  hk_principal : option string;
  hk_proxy_user : option string;
  hk_name : string;
  hk_num_executors : option Z;
  hk_status_poll_interval : Z;
  hk_application_args : option (list PyVal);
  hk_env_vars : option PyDict;
  hk_verbose : bool;
  hk_spark_binary : option string
}.

(** ** The hook object

    The class [SparkSubmitHook] is defined in
    [airflow/providers/apache/spark/hooks/spark_submit.py], outside the
    operator's module; the operator only constructs it and calls [submit] and
    [on_kill] on it.  What the hook does is taken from the specification. *)

(** Modelled from the spec: the terminal statuses of a submission (section 3
    and the glossary); the hook's module is not at hand. *)
Inductive TerminalStatus : Type := SUCCEEDED | FAILED | KILLED | UNKNOWN.

(** Modelled from the spec: the states of the lifecycle controller
    (section 4.4); the hook's module is not at hand. *)
Inductive ControllerState : Type :=
| IDLE
| BUILDING
| LAUNCHING
| RUNNING_ATTACHED
| RUNNING_DETACHED
| Terminal (t : TerminalStatus).

(** Modelled from the spec: the hook object, which keeps the configuration
    it was constructed with and owns one lifecycle controller; the hook's
    module is not at hand.  [hook_id] is the identity of the Python object:
    two hooks are the same object exactly when their identities agree. *)
Record SparkSubmitHook : Type := mkHook {
  hook_id : nat;
  hook_kwargs : HookKwargs;
  hook_state : ControllerState
}.

(** ** The operator object *)

Record SparkSubmitOperator : Type := mkOperator {
  _application : string;
  _conf : option PyDict;
  _files : option string;
  _py_files : option string;
  _archives : option string;
  _driver_class_path : option string;
  _jars : option string;
  _java_class : option string;
  _packages : option string;
  _exclude_packages : option string;
  _repositories : option string;
  _total_executor_cores : option Z;
  _executor_cores : option Z;
  _executor_memory : option string;
  _driver_memory : option string;
  _keytab : option string;
  _principal : option string;
  _proxy_user : option string;
  _name : string;
  _num_executors : option Z;
  _status_poll_interval : Z;
  _application_args : option (list PyVal);
  _env_vars : option PyDict;
  _verbose : bool;
  _spark_binary : option string;
  _hook : option SparkSubmitHook;
  _conn_id : string
}.

(** The assignment [self._hook = h]; every other attribute is kept. *)
Definition with_hook (h : option SparkSubmitHook) (o : SparkSubmitOperator)
  : SparkSubmitOperator :=
  mkOperator (_application o) (_conf o) (_files o) (_py_files o) (_archives o)
    (_driver_class_path o) (_jars o) (_java_class o) (_packages o)
    (_exclude_packages o) (_repositories o) (_total_executor_cores o)
    (_executor_cores o) (_executor_memory o) (_driver_memory o) (_keytab o)
    (_principal o) (_proxy_user o) (_name o) (_num_executors o)
    (_status_poll_interval o) (_application_args o) (_env_vars o) (_verbose o)
    (_spark_binary o) h (_conn_id o).

(** ** Construction *)

(** The keyword arguments of [__init__].  Every parameter is keyword-only and
    has a default, so each is either omitted ([None] here) or supplied
    ([Some v]); for a parameter annotated [Optional[T]] the supplied value may
    itself be Python's [None]. *)
Record InitKwargs : Type := mkInitKwargs {
  kw_application : option string;
  kw_conf : option (option PyDict);
  kw_conn_id : option string;
  kw_files : option (option string);
  kw_py_files : option (option string);
  kw_archives : option (option string);
  kw_driver_class_path : option (option string);
  kw_jars : option (option string);
  kw_java_class : option (option string);
  kw_packages : option (option string);
  kw_exclude_packages : option (option string);
  kw_repositories : option (option string);
  kw_total_executor_cores : option (option Z);
  kw_executor_cores : option (option Z);
  kw_executor_memory : option (option string);
  kw_driver_memory : option (option string);
  kw_keytab : option (option string);
  kw_principal : option (option string);
  kw_proxy_user : option (option string);
  kw_name : option string;
  kw_num_executors : option (option Z);
  kw_status_poll_interval : option Z;
  kw_application_args : option (option (list PyVal));
  kw_env_vars : option (option PyDict);
  kw_verbose : option bool;
  kw_spark_binary : option (option string)
}.

(** A call that supplies no keyword at all. *)
Definition no_kwargs : InitKwargs :=
  mkInitKwargs None None None None None None None None None None None None None
    None None None None None None None None None None None None None.

(** Binding of a keyword parameter: the supplied value, else the default. *)
Definition param {A : Type} (supplied : option A) (default : A) : A :=
  match supplied with
  | Some v => v
  | None => default
  end.

(** [SparkSubmitOperator.__init__]: the defaults are those of the signature,
    the body stores each parameter in the attribute of the same name and sets
    [_hook] to [None]. *)
Definition __init__ (kw : InitKwargs) : SparkSubmitOperator :=
  let application := param (kw_application kw) "" in
  let conf := param (kw_conf kw) None in
  let conn_id := param (kw_conn_id kw) "spark_default" in
  let files := param (kw_files kw) None in
  let py_files := param (kw_py_files kw) None in
  let archives := param (kw_archives kw) None in
  let driver_class_path := param (kw_driver_class_path kw) None in
  let jars := param (kw_jars kw) None in
  let java_class := param (kw_java_class kw) None in
  let packages := param (kw_packages kw) None in
  let exclude_packages := param (kw_exclude_packages kw) None in
  let repositories := param (kw_repositories kw) None in
  let total_executor_cores := param (kw_total_executor_cores kw) None in
  let executor_cores := param (kw_executor_cores kw) None in
  let executor_memory := param (kw_executor_memory kw) None in
  let driver_memory := param (kw_driver_memory kw) None in
  let keytab := param (kw_keytab kw) None in
  let principal := param (kw_principal kw) None in
  let proxy_user := param (kw_proxy_user kw) None in
  let name := param (kw_name kw) "arrow-spark" in
  let num_executors := param (kw_num_executors kw) None in
  let status_poll_interval := param (kw_status_poll_interval kw) 1%Z in
  let application_args := param (kw_application_args kw) None in
  let env_vars := param (kw_env_vars kw) None in
  let verbose := param (kw_verbose kw) false in
  let spark_binary := param (kw_spark_binary kw) None in
  {| _application := application;
     _conf := conf;
     _files := files;
     _py_files := py_files;
     _archives := archives;
     _driver_class_path := driver_class_path;
     _jars := jars;
     _java_class := java_class;
     _packages := packages;
     _exclude_packages := exclude_packages;
     _repositories := repositories;
     _total_executor_cores := total_executor_cores;
     _executor_cores := executor_cores;
     _executor_memory := executor_memory;
     _driver_memory := driver_memory;
     _keytab := keytab;
     _principal := principal;
     _proxy_user := proxy_user;
     _name := name;
     _num_executors := num_executors;
     _status_poll_interval := status_poll_interval;
     _application_args := application_args;
     _env_vars := env_vars;
     _verbose := verbose;
     _spark_binary := spark_binary;
     _hook := None;
     _conn_id := conn_id |}.

(** The keyword arguments [_get_hook] passes to the hook's constructor: each
    keyword is bound to the attribute the source names for it. *)
Definition _get_hook_kwargs (self : SparkSubmitOperator) : HookKwargs :=
  {| hk_conf := _conf self;
     hk_conn_id := _conn_id self;
     hk_files := _files self;
     hk_py_files := _py_files self;
     hk_archives := _archives self;
     hk_driver_class_path := _driver_class_path self;
     hk_jars := _jars self;
     hk_java_class := _java_class self;
     hk_packages := _packages self;
     hk_exclude_packages := _exclude_packages self;
     hk_repositories := _repositories self;
     hk_total_executor_cores := _total_executor_cores self;
     hk_executor_cores := _executor_cores self;
     hk_executor_memory := _executor_memory self;
     hk_driver_memory := _driver_memory self;
     hk_keytab := _keytab self;
     hk_principal := _principal self;
     hk_proxy_user := _proxy_user self;
     hk_name := _name self;
     hk_num_executors := _num_executors self;
     hk_status_poll_interval := _status_poll_interval self;
     hk_application_args := _application_args self;
     hk_env_vars := _env_vars self;
     hk_verbose := _verbose self;
     hk_spark_binary := _spark_binary self |}.

(** ** Mutable state and effects *)

(** Calls that cross the boundary between the operator and its hook, in the
    order they are made.  The number is the identity of the hook object the
    call constructs or is made on. *)
Inductive Call : Type :=
| CallInit (h : nat) (kwargs : HookKwargs)
| CallSubmit (h : nat) (application : string)
| CallOnKill (h : nat).

(** Modelled from the spec: what the hook does across the process boundary
    (sections 4.2 and 6); the hook's module is not at hand. *)
Inductive OsEvent : Type :=
| ProcessStarted (argv : list string) (env : list (string * string))
| TerminationSignal (h : nat).

(** The exceptions a method can raise: the two error classes of the
    specification's taxonomy that abort a submission (section 7), and
    Python's own [AttributeError] for a method call on [None]. *)
Inductive Exn : Type :=
| ConfigError
| LaunchError
| AttributeError.

(** The state a method runs in: the operator object itself, the next unused
    object identity, and the two logs. *)
Record State : Type := mkState {
  self : SparkSubmitOperator;
  next_id : nat;
  calls : list Call;
  os_events : list OsEvent
}.

(** A method either returns a value or raises; the effects made before an
    exception is raised stay. *)
Definition M (A : Type) : Type := State -> (Exn + A) * State.

Definition ret {A : Type} (a : A) : M A := fun s => (inr a, s).

Definition raise {A : Type} (e : Exn) : M A := fun s => (inl e, s).

Definition bind {A B : Type} (m : M A) (k : A -> M B) : M B :=
  fun s =>
    match m s with
    | (inl e, s') => (inl e, s')
    | (inr a, s') => k a s'
    end.

Notation "x <- m ;; k" := (bind m (fun x => k))
  (at level 61, m at next level, right associativity).
Notation "m ;; k" := (bind m (fun _ => k))
  (at level 61, right associativity).

(** Reading an attribute of [self]. *)
Definition attr {A : Type} (field : SparkSubmitOperator -> A) : M A :=
  fun s => (inr (field (self s)), s).

(** [self._hook = h]. *)
Definition assign_hook (h : SparkSubmitHook) : M unit :=
  fun s => (inr tt, mkState (with_hook (Some h) (self s)) (next_id s)
                            (calls s) (os_events s)).

(** Modelled from the spec: the constructor [SparkSubmitHook(...)], whose
    body is in the hook's module.  It yields a new object that keeps its
    arguments and whose controller is [IDLE] (section 4.4); the call is
    logged. *)
Definition SparkSubmitHook__init__ (kwargs : HookKwargs)
  : M SparkSubmitHook :=
  fun s =>
    (inr (mkHook (next_id s) kwargs IDLE),
     mkState (self s) (S (next_id s))
             (calls s ++ [CallInit (next_id s) kwargs]) (os_events s)).

(** [SparkSubmitOperator._get_hook]: one constructor call, with the keyword
    arguments of [_get_hook_kwargs]. *)
Definition _get_hook : M SparkSubmitHook :=
  this <- attr (fun o => o) ;;
  SparkSubmitHook__init__ (_get_hook_kwargs this).

(** Modelled from the spec: a transition of the hook's controller. *)
Definition set_state (c : ControllerState) (h : SparkSubmitHook)
  : SparkSubmitHook :=
  mkHook (hook_id h) (hook_kwargs h) c.

(** Modelled from the spec: what the submission tool does once asked to
    start (sections 4.2 to 4.4): the launch fails, or the process is awaited
    and exits with a code, or it detaches and the poller ends on a terminal
    snapshot. *)
Inductive ToolOutcome : Type :=
| LaunchFails
| ExitsAttached (code : Z)
| Detaches (final : TerminalStatus).

(** Modelled from the spec: the two running states of section 4.4. *)
Definition is_running (c : ControllerState) : bool :=
  match c with
  | RUNNING_ATTACHED | RUNNING_DETACHED => true
  | _ => false
  end.

(** Modelled from the spec: [on_kill] of the hook (sections 4.2 and 6) sends
    a termination signal to the tracked submission if it is still running and
    is a no-op otherwise. *)
Definition hook_on_kill (h : SparkSubmitHook) (os : list OsEvent)
  : SparkSubmitHook * list OsEvent :=
  if is_running (hook_state h)
  then (set_state (Terminal KILLED) h, os ++ [TerminationSignal (hook_id h)])
  else (h, os).

(** [self._hook.on_kill()]; on [None] Python raises [AttributeError]. *)
Definition self_hook_on_kill : M unit :=
  fun s =>
    match _hook (self s) with
    | None => (inl AttributeError, s)
    | Some h =>
        let '(h', os') := hook_on_kill h (os_events s) in
        (inr tt, mkState (with_hook (Some h') (self s)) (next_id s)
                         (calls s ++ [CallOnKill (hook_id h)]) os')
    end.

(** [SparkSubmitOperator.on_kill]. *)
Definition on_kill : M unit :=
  hook <- attr _hook ;;
  match hook with
  | None => h <- _get_hook ;; assign_hook h
  | Some _ => ret tt
  end ;;
  self_hook_on_kill.

Section Submission.

(** The parts of the hook and of its environment that the specification
    leaves open. *)

(** Whether a configuration names the application by other means than the
    application reference (section 4.1, last rule). *)
Variable alternate_identifier : HookKwargs -> bool.

(** The command line and the environment overlay of a valid configuration
    (section 4.1). *)
Variable render :
  HookKwargs -> string -> list string * list (string * string).

(** The submission tool; the number is the count of earlier events. *)
Variable tool :
  nat -> list string -> list (string * string) -> ToolOutcome.

(** Modelled from the spec: [build] of the CommandBuilder (section 4.1),
    which fails with [ConfigError] if the application reference is empty
    and no alternate way of identifying the application was configured. *)
Definition build (config : HookKwargs) (application : string)
  : Exn + (list string * list (string * string)) :=
  if (application =? "") && negb (alternate_identifier config)
  then inl ConfigError
  else inr (render config application).

(** Modelled from the spec: [submit] of the hook (sections 4.4 and 6), the
    full build, launch and poll cycle, blocking until a terminal state.
    Configuration and launch errors abort without a process; a failed job
    is a terminal status, not a fault (section 7). *)
Definition hook_submit (h : SparkSubmitHook) (application : string)
    (os : list OsEvent)
  : (Exn + unit) * SparkSubmitHook * list OsEvent :=
  match build (hook_kwargs h) application with
  | inl e => (inl e, set_state (Terminal FAILED) h, os)
  | inr (argv, env) =>
      match tool (List.length os) argv env with
      | LaunchFails => (inl LaunchError, set_state (Terminal FAILED) h, os)
      | ExitsAttached code =>
          (inr tt,
           set_state (Terminal (if (code =? 0)%Z then SUCCEEDED else FAILED)) h,
           os ++ [ProcessStarted argv env])
      | Detaches final =>
          (inr tt, set_state (Terminal final) h,
           os ++ [ProcessStarted argv env])
      end
  end.

(** [self._hook.submit(application)]; on [None] Python raises
    [AttributeError]. *)
Definition self_hook_submit (application : string) : M unit :=
  fun s =>
    match _hook (self s) with
    | None => (inl AttributeError, s)
    | Some h =>
        let '(r, h', os') := hook_submit h application (os_events s) in
        (r, mkState (with_hook (Some h') (self s)) (next_id s)
                    (calls s ++ [CallSubmit (hook_id h) application]) os')
    end.

(** [SparkSubmitOperator.execute]. *)
Definition execute (context : Context) : M unit :=
  hook <- attr _hook ;;
  match hook with
  | None => h <- _get_hook ;; assign_hook h
  | Some _ => ret tt
  end ;;
  application <- attr _application ;;
  self_hook_submit application.

(** Successive calls of [execute] on the same operator instance, one per
    context, whatever each call returns or raises. *)
Fixpoint execute_all (contexts : list Context) (s : State) : State :=
  match contexts with
  | [] => s
  | context :: rest => execute_all rest (snd (execute context s))
  end.

End Submission.

(** The state in which a newly constructed operator starts. *)
Definition fresh (o : SparkSubmitOperator) : State := mkState o 0 [] [].

(** The hooks on which [submit] was called, in order. *)
Fixpoint submit_targets (l : list Call) : list nat :=
  match l with
  | [] => []
  | CallSubmit h _ :: rest => h :: submit_targets rest
  | _ :: rest => submit_targets rest
  end.

(** The arguments [submit] was called with, in order. *)
Fixpoint submit_arguments (l : list Call) : list string :=
  match l with
  | [] => []
  | CallSubmit _ a :: rest => a :: submit_arguments rest
  | _ :: rest => submit_arguments rest
  end.

(** The hooks constructed, in order, with their keyword arguments. *)
Fixpoint constructions (l : list Call) : list (nat * HookKwargs) :=
  match l with
  | [] => []
  | CallInit h kwargs :: rest => (h, kwargs) :: constructions rest
  | _ :: rest => constructions rest
  end.

(** The termination signals sent, in order. *)
Fixpoint signals (l : list OsEvent) : list nat :=
  match l with
  | [] => []
  | TerminationSignal h :: rest => h :: signals rest
  | _ :: rest => signals rest
  end.

(** The processes started, in order. *)
Fixpoint started (l : list OsEvent) : list (list string) :=
  match l with
  | [] => []
  | ProcessStarted argv _ :: rest => argv :: started rest
  | _ :: rest => started rest
  end.

(** ** Vocabulary of the statements *)

(** The attribute [_application] replaced, every other attribute kept. *)
Definition with_application (a : string) (o : SparkSubmitOperator)
  : SparkSubmitOperator :=
  mkOperator a (_conf o) (_files o) (_py_files o) (_archives o)
    (_driver_class_path o) (_jars o) (_java_class o) (_packages o)
    (_exclude_packages o) (_repositories o) (_total_executor_cores o)
    (_executor_cores o) (_executor_memory o) (_driver_memory o) (_keytab o)
    (_principal o) (_proxy_user o) (_name o) (_num_executors o)
    (_status_poll_interval o) (_application_args o) (_env_vars o) (_verbose o)
    (_spark_binary o) (_hook o) (_conn_id o).

(** The two operators agree on every attribute [__init__] stores, [_hook]
    apart. *)
Definition same_configuration (o o' : SparkSubmitOperator) : Prop :=
  _application o' = _application o /\
  _conf o' = _conf o /\
  _conn_id o' = _conn_id o /\
  _files o' = _files o /\
  _py_files o' = _py_files o /\
  _archives o' = _archives o /\
  _driver_class_path o' = _driver_class_path o /\
  _jars o' = _jars o /\
  _java_class o' = _java_class o /\
  _packages o' = _packages o /\
  _exclude_packages o' = _exclude_packages o /\
  _repositories o' = _repositories o /\
  _total_executor_cores o' = _total_executor_cores o /\
  _executor_cores o' = _executor_cores o /\
  _executor_memory o' = _executor_memory o /\
  _driver_memory o' = _driver_memory o /\
  _keytab o' = _keytab o /\
  _principal o' = _principal o /\
  _proxy_user o' = _proxy_user o /\
  _name o' = _name o /\
  _num_executors o' = _num_executors o /\
  _status_poll_interval o' = _status_poll_interval o /\
  _application_args o' = _application_args o /\
  _env_vars o' = _env_vars o /\
  _verbose o' = _verbose o /\
  _spark_binary o' = _spark_binary o.

(** The calls made since the log was [before]. *)
Definition calls_since (before : State) (after : State) : list Call :=
  skipn (List.length (calls before)) (calls after).

(** The identity of the hook that serves the next call made through
    [self._hook]: the stored hook, or else the object [_get_hook] is about to
    create. *)
Definition serving_id (s : State) : nat :=
  match _hook (self s) with
  | Some h => hook_id h
  | None => next_id s
  end.

(** The configuration that hook was, or is about to be, constructed with. *)
Definition serving_kwargs (s : State) : HookKwargs :=
  match _hook (self s) with
  | Some h => hook_kwargs h
  | None => _get_hook_kwargs (self s)
  end.

(** A submission is in flight: the stored hook's controller is running. *)
Definition in_flight (s : State) : bool :=
  match _hook (self s) with
  | Some h => is_running (hook_state h)
  | None => false
  end.

(** The keyword arguments the constructor call of [m] received. *)
Definition received (r : (Exn + SparkSubmitHook) * State)
  : option HookKwargs :=
  match fst r with
  | inr h => Some (hook_kwargs h)
  | inl _ => None
  end.

(** ** Concrete inputs *)

Definition no_alternate (_ : HookKwargs) : bool := false.

Definition plain_render (config : HookKwargs) (application : string)
  : list string * list (string * string) :=
  (["spark-submit"; application], []).

Definition tool_exits_zero (_ : nat) (_ : list string)
    (_ : list (string * string)) : ToolOutcome :=
  ExitsAttached 0.

(** [SparkSubmitOperator()]. *)
Definition default_operator : SparkSubmitOperator := __init__ no_kwargs.

(** [SparkSubmitOperator(application='job.jar',
    packages='org.a:b:1.0,org.c:d:2.0')]. *)
Definition job_jar_operator : SparkSubmitOperator :=
  __init__
    (mkInitKwargs (Some "job.jar") None None None None None None None None
       (Some (Some "org.a:b:1.0,org.c:d:2.0")) None None None None None None
       None None None None None None None None None None).

(** The same operator with a submission in flight on its hook. *)
Definition running_state : State :=
  mkState
    (with_hook (Some (mkHook 0 (_get_hook_kwargs job_jar_operator)
                             RUNNING_ATTACHED)) job_jar_operator)
    1 [CallInit 0 (_get_hook_kwargs job_jar_operator)] [].

(** The state [_get_hook] followed by [self._hook = ...] leaves. *)
Definition after_get_hook (s : State) : State :=
  mkState
    (with_hook (Some (mkHook (next_id s) (_get_hook_kwargs (self s)) IDLE))
               (self s))
    (S (next_id s))
    (calls s ++ [CallInit (next_id s) (_get_hook_kwargs (self s))])
    (os_events s).

(** The attribute [stored] holds the supplied value, or [default] when the
    parameter was omitted. *)
Definition defaults_to {A : Type} (supplied : option A) (default stored : A)
  : Prop :=
  match supplied with
  | None => stored = default
  | Some v => stored = v
  end.

(** The hook's keyword [reached] is the string the operator was constructed
    with, or [None] when the parameter was omitted or given as [None]. *)
Definition verbatim (supplied : option (option string))
    (reached : option string) : Prop :=
  match supplied with
  | Some (Some str) => reached = Some str
  | Some None => reached = None
  | None => reached = None
  end.

(** ** The class attributes and the host's calls *)

(** The class attribute [template_fields]: the attributes the host renders as
    templates before it calls [execute]. *)
Definition template_fields : list string :=
  ["_application"; "_conf"; "_files"; "_py_files"; "_jars";
   "_driver_class_path"; "_packages"; "_exclude_packages"; "_keytab";
   "_principal"; "_proxy_user"; "_name"; "_application_args"; "_env_vars"].

(** The attributes the body of [__init__] assigns, in the order of its
    assignments. *)
Definition assigned_attributes : list string :=
  ["_application"; "_conf"; "_files"; "_py_files"; "_archives";
   "_driver_class_path"; "_jars"; "_java_class"; "_packages";
   "_exclude_packages"; "_repositories"; "_total_executor_cores";
   "_executor_cores"; "_executor_memory"; "_driver_memory"; "_keytab";
   "_principal"; "_proxy_user"; "_name"; "_num_executors";
   "_status_poll_interval"; "_application_args"; "_env_vars"; "_verbose";
   "_spark_binary"; "_hook"; "_conn_id"].

(** Membership of a name in a list of names. *)
Definition mem (name : string) (names : list string) : bool :=
  existsb (String.eqb name) names.

(** A call the host makes on the operator. *)
Inductive MethodCall : Type :=
| Execute (context : Context)
| OnKill.

Section Host.

Variable alternate_identifier : HookKwargs -> bool.
Variable render :
  HookKwargs -> string -> list string * list (string * string).
Variable tool :
  nat -> list string -> list (string * string) -> ToolOutcome.

(** One call of a method of the operator. *)
Definition invoke (m : MethodCall) : M unit :=
  match m with
  | Execute context => execute alternate_identifier render tool context
  | OnKill => on_kill
  end.

(** Successive calls on the same operator instance, whatever each returns or
    raises. *)
Fixpoint invoke_all (ms : list MethodCall) (s : State) : State :=
  match ms with
  | [] => s
  | m :: rest => invoke_all rest (snd (invoke m s))
  end.

End Host.

(** The call on the hook [h] that a call of the operator's method [m] makes
    when [_application] holds [application]. *)
Definition hook_call (h : nat) (application : string) (m : MethodCall)
  : Call :=
  match m with
  | Execute _ => CallSubmit h application
  | OnKill => CallOnKill h
  end.

(** The method calls of a log: the constructor calls left out. *)
Fixpoint method_calls (l : list Call) : list Call :=
  match l with
  | [] => []
  | CallInit _ _ :: rest => method_calls rest
  | c :: rest => c :: method_calls rest
  end.

(** The hook object that serves the next call made through [self._hook]: the
    stored one, or else the one [_get_hook] is about to construct. *)
Definition serving_hook (s : State) : SparkSubmitHook :=
  match _hook (self s) with
  | Some h => h
  | None => mkHook (next_id s) (_get_hook_kwargs (self s)) IDLE
  end.

(** The state with the operator's attributes replaced by those of [o]. *)
Definition with_self (o : SparkSubmitOperator) (s : State) : State :=
  mkState o (next_id s) (calls s) (os_events s).

(** [n] successive direct calls of [_get_hook], the results dropped. *)
Fixpoint get_hook_times (n : nat) (s : State) : State :=
  match n with
  | O => s
  | S n' => get_hook_times n' (snd (_get_hook s))
  end.

(** The state after the first [execute] of [job_jar_operator]. *)
Definition served_state : State :=
  snd (execute no_alternate plain_render tool_exits_zero []
               (fresh job_jar_operator)).

(** The operator of [served_state] after the assignments
    [_name = 'renamed'] and [_packages = None]. *)
Definition renamed_operator : SparkSubmitOperator :=
  with_hook (_hook (self served_state))
    (__init__
       (mkInitKwargs (Some "job.jar") None None None None None None None None
          None None None None None None None None None None (Some "renamed")
          None None None None None None)).

(** * Properties *)

(** ** Structure of the methods *)

Lemma skipn_length_app (A : Type) (l new : list A) :
  skipn (List.length l) (l ++ new) = new.
Proof.
  induction l as [|x l IH]; simpl; [reflexivity | exact IH].
Qed.

Lemma with_hook_configuration (h : option SparkSubmitHook)
    (o : SparkSubmitOperator) :
  same_configuration o (with_hook h o).
Proof.
  unfold same_configuration; simpl; repeat split.
Qed.

Lemma same_configuration_refl (o : SparkSubmitOperator) :
  same_configuration o o.
Proof.
  unfold same_configuration; repeat split.
Qed.

Lemma same_configuration_trans (o1 o2 o3 : SparkSubmitOperator) :
  same_configuration o1 o2 -> same_configuration o2 o3 ->
  same_configuration o1 o3.
Proof.
  unfold same_configuration; intros H12 H23.
  repeat match goal with H : _ /\ _ |- _ => destruct H end.
  repeat split; congruence.
Qed.

Lemma same_configuration_kwargs (o o' : SparkSubmitOperator) :
  same_configuration o o' -> _get_hook_kwargs o' = _get_hook_kwargs o.
Proof.
  unfold same_configuration, _get_hook_kwargs; intros H.
  repeat match goal with H : _ /\ _ |- _ => destruct H end.
  repeat match goal with H : _ = _ |- _ => rewrite H; clear H end.
  reflexivity.
Qed.

Lemma with_hook_stored (o : SparkSubmitOperator) (h : SparkSubmitHook) :
  _hook o = Some h -> with_hook (Some h) o = o.
Proof.
  destruct o; simpl; intros ->; reflexivity.
Qed.

Lemma _get_hook_eq (s : State) :
  _get_hook s =
  (inr (mkHook (next_id s) (_get_hook_kwargs (self s)) IDLE),
   mkState (self s) (S (next_id s))
           (calls s ++ [CallInit (next_id s) (_get_hook_kwargs (self s))])
           (os_events s)).
Proof. reflexivity. Qed.

Lemma on_kill_eq (s : State) :
  on_kill s =
  match _hook (self s) with
  | None => self_hook_on_kill (after_get_hook s)
  | Some _ => self_hook_on_kill s
  end.
Proof.
  unfold on_kill, bind, attr; simpl.
  destruct (_hook (self s)); reflexivity.
Qed.

Lemma self_hook_on_kill_stored (s : State) (h : SparkSubmitHook) :
  _hook (self s) = Some h ->
  self_hook_on_kill s =
  (inr tt,
   mkState (with_hook (Some (fst (hook_on_kill h (os_events s)))) (self s))
           (next_id s)
           (calls s ++ [CallOnKill (hook_id h)])
           (snd (hook_on_kill h (os_events s)))).
Proof.
  intros E. unfold self_hook_on_kill. rewrite E.
  destruct (hook_on_kill h (os_events s)) as [h' os']. reflexivity.
Qed.

(** What one call of [on_kill] does: it never raises, it constructs a hook
    only if none is stored, and it signals exactly when the stored hook's
    controller is running. *)
Lemma on_kill_effect (s : State) :
  fst (on_kill s) = inr tt /\
  calls (snd (on_kill s)) =
    calls s
    ++ match _hook (self s) with
       | None => [CallInit (next_id s) (_get_hook_kwargs (self s))]
       | Some _ => []
       end
    ++ [CallOnKill (serving_id s)] /\
  os_events (snd (on_kill s)) =
    os_events s
    ++ (if in_flight s then [TerminationSignal (serving_id s)] else []) /\
  match _hook (self s) with
  | Some h =>
      self (snd (on_kill s)) =
        with_hook (Some (if is_running (hook_state h)
                         then set_state (Terminal KILLED) h else h)) (self s) /\
      next_id (snd (on_kill s)) = next_id s
  | None =>
      self (snd (on_kill s)) =
        with_hook
          (Some (mkHook (next_id s) (_get_hook_kwargs (self s)) IDLE))
          (self s) /\
      next_id (snd (on_kill s)) = S (next_id s)
  end.
Proof.
  rewrite on_kill_eq. unfold serving_id, in_flight.
  destruct (_hook (self s)) as [h|] eqn:E.
  - rewrite (self_hook_on_kill_stored _ E); simpl.
    unfold hook_on_kill.
    destruct (is_running (hook_state h)); simpl;
      rewrite ?app_nil_r; repeat split; reflexivity.
  - rewrite (@self_hook_on_kill_stored (after_get_hook s)
               (mkHook (next_id s) (_get_hook_kwargs (self s)) IDLE)
               eq_refl); simpl.
    rewrite <- app_assoc, app_nil_r. repeat split; reflexivity.
Qed.

Lemma submit_targets_app (l1 l2 : list Call) :
  submit_targets (l1 ++ l2) = submit_targets l1 ++ submit_targets l2.
Proof.
  induction l1 as [|c l1 IH]; simpl; [reflexivity|].
  destruct c; simpl; rewrite IH; reflexivity.
Qed.

Lemma constructions_app (l1 l2 : list Call) :
  constructions (l1 ++ l2) = constructions l1 ++ constructions l2.
Proof.
  induction l1 as [|c l1 IH]; simpl; [reflexivity|].
  destruct c; simpl; rewrite IH; reflexivity.
Qed.

Section SubmissionProperties.

Variable alternate_identifier : HookKwargs -> bool.
Variable render :
  HookKwargs -> string -> list string * list (string * string).
Variable tool :
  nat -> list string -> list (string * string) -> ToolOutcome.

Local Abbreviation build := (build alternate_identifier render).
Local Abbreviation hook_submit := (hook_submit alternate_identifier render tool).
Local Abbreviation self_hook_submit :=
  (self_hook_submit alternate_identifier render tool).
Local Abbreviation execute := (execute alternate_identifier render tool).
Local Abbreviation execute_all :=
  (execute_all alternate_identifier render tool).

Lemma execute_eq (context : Context) (s : State) :
  execute context s =
  match _hook (self s) with
  | None => self_hook_submit (_application (self s)) (after_get_hook s)
  | Some _ => self_hook_submit (_application (self s)) s
  end.
Proof.
  unfold execute, bind, attr; simpl.
  destruct (_hook (self s)); reflexivity.
Qed.

(** [submit] keeps the hook's identity and configuration and leaves its
    controller in a terminal state. *)
Lemma hook_submit_hook (h : SparkSubmitHook) (a : string)
    (os : list OsEvent) :
  hook_id (snd (fst (hook_submit h a os))) = hook_id h /\
  hook_kwargs (snd (fst (hook_submit h a os))) = hook_kwargs h /\
  exists t, hook_state (snd (fst (hook_submit h a os))) = Terminal t.
Proof.
  unfold hook_submit.
  destruct (build (hook_kwargs h) a) as [e | [argv env]]; simpl.
  - repeat split; eauto.
  - destruct (tool (List.length os) argv env); simpl; repeat split; eauto.
Qed.

Lemma self_hook_submit_stored (a : string) (s : State)
    (h : SparkSubmitHook) :
  _hook (self s) = Some h ->
  self_hook_submit a s =
  (fst (fst (hook_submit h a (os_events s))),
   mkState (with_hook (Some (snd (fst (hook_submit h a (os_events s)))))
                      (self s))
           (next_id s)
           (calls s ++ [CallSubmit (hook_id h) a])
           (snd (hook_submit h a (os_events s)))).
Proof.
  intros E. unfold self_hook_submit. rewrite E.
  destruct (hook_submit h a (os_events s)) as [[r h'] os']. reflexivity.
Qed.

(** What one call of [execute] does to the log of calls, to the stored hook,
    to the configuration and to the identity counter. *)
Lemma execute_effect (context : Context) (s : State) :
  calls (snd (execute context s)) =
    calls s
    ++ match _hook (self s) with
       | None => [CallInit (next_id s) (_get_hook_kwargs (self s))]
       | Some _ => []
       end
    ++ [CallSubmit (serving_id s) (_application (self s))] /\
  (exists h', _hook (self (snd (execute context s))) = Some h' /\
              hook_id h' = serving_id s /\
              hook_kwargs h' = serving_kwargs s /\
              exists t, hook_state h' = Terminal t) /\
  same_configuration (self s) (self (snd (execute context s))) /\
  next_id (snd (execute context s)) =
    match _hook (self s) with
    | None => S (next_id s)
    | Some _ => next_id s
    end.
Proof.
  rewrite execute_eq. unfold serving_id, serving_kwargs.
  destruct (_hook (self s)) as [h|] eqn:E.
  - rewrite (self_hook_submit_stored _ _ E); simpl.
    destruct (hook_submit_hook h (_application (self s)) (os_events s))
      as (Hid & Hkw & Hst).
    split; [reflexivity | split; [| split; [| reflexivity]]].
    + eexists; repeat split; eauto.
    + apply with_hook_configuration.
  - rewrite (@self_hook_submit_stored _ (after_get_hook s)
               (mkHook (next_id s) (_get_hook_kwargs (self s)) IDLE)
               eq_refl); simpl.
    match goal with
    | |- context [hook_submit ?h ?a ?os] =>
        destruct (hook_submit_hook h a os) as (Hid & Hkw & Hst)
    end.
    simpl in Hid, Hkw.
    split; [| split; [| split; [| reflexivity]]].
    + rewrite <- app_assoc. reflexivity.
    + eexists; repeat split; eauto.
    + eapply same_configuration_trans; apply with_hook_configuration.
Qed.

(** ** The submission call *)

(** C1: one call of [execute] makes exactly one call of the hook's
    [submit], on the hook the operator stores, with the attribute
    [_application] as its argument.  The only other call it can make is the
    constructor call of [_get_hook], and the arguments of that call are the
    same whatever [_application] holds: the application reference goes
    nowhere else. *)
Theorem execute_submits_application_once (context : Context) (s : State) :
  calls (snd (execute context s)) =
    calls s ++ calls_since s (snd (execute context s)) /\
  calls_since s (snd (execute context s)) =
    match _hook (self s) with
    | None => [CallInit (next_id s) (_get_hook_kwargs (self s))]
    | Some _ => []
    end
    ++ [CallSubmit (serving_id s) (_application (self s))] /\
  submit_arguments (calls_since s (snd (execute context s))) =
    [_application (self s)] /\
  option_map hook_id (_hook (self (snd (execute context s)))) =
    Some (serving_id s) /\
  forall a : string,
    _get_hook_kwargs (with_application a (self s)) =
    _get_hook_kwargs (self s).
Proof.
  destruct (execute_effect context s) as (Hc & (h' & Hh & Hid & _) & _).
  unfold calls_since. rewrite Hc, skipn_length_app.
  split; [reflexivity | split; [reflexivity | split; [| split]]].
  - destruct (_hook (self s)); reflexivity.
  - rewrite Hh; simpl; rewrite Hid; reflexivity.
  - intros a; reflexivity.
Qed.

(** C2: when the application reference is the empty string and the
    configuration of the serving hook names no alternate way of identifying
    the application, [execute] raises [ConfigError], the log of
    operating-system events is unchanged (no process was started) and
    [build] returns no argv. *)
Theorem empty_application_is_config_error (context : Context) (s : State) :
  _application (self s) = "" ->
  alternate_identifier (serving_kwargs s) = false ->
  fst (execute context s) = inl ConfigError /\
  os_events (snd (execute context s)) = os_events s /\
  build (serving_kwargs s) (_application (self s)) = inl ConfigError.
Proof.
  intros Happ Halt.
  assert (Hb : build (serving_kwargs s) (_application (self s))
               = inl ConfigError).
  { unfold build. rewrite Happ, Halt. reflexivity. }
  split; [| split; [| exact Hb]]; rewrite execute_eq; revert Hb;
    unfold serving_kwargs; destruct (_hook (self s)) as [h|] eqn:E; intros Hb.
  - rewrite (self_hook_submit_stored _ _ E); simpl.
    unfold hook_submit; rewrite Hb; reflexivity.
  - rewrite (@self_hook_submit_stored _ (after_get_hook s)
               (mkHook (next_id s) (_get_hook_kwargs (self s)) IDLE)
               eq_refl); simpl.
    unfold hook_submit; simpl; rewrite Hb; reflexivity.
  - rewrite (self_hook_submit_stored _ _ E); simpl.
    unfold hook_submit; rewrite Hb; reflexivity.
  - rewrite (@self_hook_submit_stored _ (after_get_hook s)
               (mkHook (next_id s) (_get_hook_kwargs (self s)) IDLE)
               eq_refl); simpl.
    unfold hook_submit; simpl; rewrite Hb; reflexivity.
Qed.

(** ** Frame *)

(** C3: neither [execute] nor [on_kill] changes any attribute that
    [__init__] stores from its parameters; [_hook] is the only attribute
    of the operator that can differ afterwards. *)
Theorem configuration_is_immutable (context : Context) (s : State) :
  same_configuration (self s) (self (snd (execute context s))) /\
  same_configuration (self s) (self (snd (on_kill s))) /\
  self (snd (execute context s)) =
    with_hook (_hook (self (snd (execute context s)))) (self s) /\
  self (snd (on_kill s)) =
    with_hook (_hook (self (snd (on_kill s)))) (self s).
Proof.
  assert (Hframe : forall o o' : SparkSubmitOperator,
             same_configuration o o' -> o' = with_hook (_hook o') o).
  { intros o o'. unfold same_configuration. intros H.
    repeat match goal with H : _ /\ _ |- _ => destruct H end.
    destruct o'; unfold with_hook; simpl in *.
    repeat match goal with H : _ = _ |- _ => rewrite <- H; clear H end.
    reflexivity. }
  assert (Hex : same_configuration (self s) (self (snd (execute context s))))
    by apply (execute_effect context s).
  assert (Hk : same_configuration (self s) (self (snd (on_kill s)))).
  { destruct (on_kill_effect s) as (_ & _ & _ & H).
    destruct (_hook (self s)); destruct H as [-> _];
      apply with_hook_configuration. }
  auto.
Qed.

(** C10: [execute] never reads its [context] argument: from the same
    state, two calls with any two contexts return or raise the same and
    leave the same state, hence make the same constructor call and the
    same [submit] call. *)
Theorem execute_ignores_context (context1 context2 : Context) (s : State) :
  execute context1 s = execute context2 s /\
  calls_since s (snd (execute context1 s)) =
    calls_since s (snd (execute context2 s)) /\
  self (snd (execute context1 s)) = self (snd (execute context2 s)).
Proof.
  repeat split; reflexivity.
Qed.

(** ** What reaches the hook *)

(** C6: the first [execute] of a newly constructed operator makes exactly
    two calls on the hook side: one constructor call and one [submit] call on
    the hook just constructed.  The argument of [submit] is the application
    reference [__init__] was given, and every keyword of the constructor call
    carries the value [__init__] was given for the parameter of the same
    name; a parameter that was omitted arrives as the default of the
    signature, so an unset field arrives as [None].  Every field is thus
    conveyed once, unchanged. *)
Theorem every_field_is_conveyed_once (kw : InitKwargs) (context : Context) :
  exists (k : HookKwargs) (a : string),
    calls (snd (execute context (fresh (__init__ kw)))) =
      [CallInit 0 k; CallSubmit 0 a] /\
    defaults_to (kw_application kw) "" a /\
    defaults_to (kw_conf kw) None (hk_conf k) /\
    defaults_to (kw_conn_id kw) "spark_default" (hk_conn_id k) /\
    defaults_to (kw_files kw) None (hk_files k) /\
    defaults_to (kw_py_files kw) None (hk_py_files k) /\
    defaults_to (kw_archives kw) None (hk_archives k) /\
    defaults_to (kw_driver_class_path kw) None (hk_driver_class_path k) /\
    defaults_to (kw_jars kw) None (hk_jars k) /\
    defaults_to (kw_java_class kw) None (hk_java_class k) /\
    defaults_to (kw_packages kw) None (hk_packages k) /\
    defaults_to (kw_exclude_packages kw) None (hk_exclude_packages k) /\
    defaults_to (kw_repositories kw) None (hk_repositories k) /\
    defaults_to (kw_total_executor_cores kw) None
      (hk_total_executor_cores k) /\
    defaults_to (kw_executor_cores kw) None (hk_executor_cores k) /\
    defaults_to (kw_executor_memory kw) None (hk_executor_memory k) /\
    defaults_to (kw_driver_memory kw) None (hk_driver_memory k) /\
    defaults_to (kw_keytab kw) None (hk_keytab k) /\
    defaults_to (kw_principal kw) None (hk_principal k) /\
    defaults_to (kw_proxy_user kw) None (hk_proxy_user k) /\
    defaults_to (kw_name kw) "arrow-spark" (hk_name k) /\
    defaults_to (kw_num_executors kw) None (hk_num_executors k) /\
    defaults_to (kw_status_poll_interval kw) 1%Z
      (hk_status_poll_interval k) /\
    defaults_to (kw_application_args kw) None (hk_application_args k) /\
    defaults_to (kw_env_vars kw) None (hk_env_vars k) /\
    defaults_to (kw_verbose kw) false (hk_verbose k) /\
    defaults_to (kw_spark_binary kw) None (hk_spark_binary k).
Proof.
  destruct (execute_effect context (fresh (__init__ kw))) as (Hc & _).
  rewrite Hc. eexists. eexists.
  split; [reflexivity |].
  unfold defaults_to; simpl.
  repeat match goal with
         | |- _ /\ _ => split
         | |- match ?x with _ => _ end => destruct x; simpl; reflexivity
         end.
Qed.

(** ** Reuse of the hook *)

Lemma execute_all_calls (contexts : list Context) :
  forall s : State,
    exists new : list Call,
      calls (execute_all contexts s) = calls s ++ new /\
      submit_targets new =
        repeat (serving_id s) (List.length contexts) /\
      constructions new =
        match _hook (self s), contexts with
        | None, _ :: _ => [(next_id s, _get_hook_kwargs (self s))]
        | _, _ => []
        end.
Proof.
  induction contexts as [|context rest IH]; intros s.
  - exists []. simpl. rewrite app_nil_r.
    destruct (_hook (self s)); repeat split; reflexivity.
  - simpl execute_all.
    destruct (execute_effect context s)
      as (Hc & (h' & Hh & Hid & _) & _ & _).
    destruct (IH (snd (execute context s))) as (new & Hn & Ht & Hk).
    assert (Hserving : serving_id (snd (execute context s)) = serving_id s).
    { unfold serving_id at 1. rewrite Hh. exact Hid. }
    rewrite Hserving in Ht. rewrite Hh in Hk.
    eexists. split; [| split].
    + rewrite Hn, Hc, <- !app_assoc. reflexivity.
    + rewrite !submit_targets_app, Ht.
      destruct (_hook (self s)); reflexivity.
    + rewrite !constructions_app, Hk.
      destruct (_hook (self s)); reflexivity.
Qed.

(** C7, as amended: the calls of [execute] on one operator instance are all
    served by the same hook object, the one the operator stores; a hook is
    constructed only by the first call, and only if the operator stores
    none. *)
Theorem executes_share_the_stored_hook (contexts : list Context)
    (s : State) :
  submit_targets (calls_since s (execute_all contexts s)) =
    repeat (serving_id s) (List.length contexts) /\
  constructions (calls_since s (execute_all contexts s)) =
    match _hook (self s), contexts with
    | None, _ :: _ => [(next_id s, _get_hook_kwargs (self s))]
    | _, _ => []
    end.
Proof.
  destruct (execute_all_calls contexts s) as (new & Hn & Ht & Hk).
  unfold calls_since. rewrite Hn, skipn_length_app. split; assumption.
Qed.

(** [execute] blocks until the submission is over: when it returns or
    raises, nothing is in flight, so a later [on_kill] falls under
    [on_kill_without_submission_is_safe]. *)
Lemma execute_leaves_nothing_in_flight (context : Context) (s : State) :
  in_flight (snd (execute context s)) = false.
Proof.
  destruct (execute_effect context s) as (_ & (h' & Hh & _ & _ & t & Ht) & _).
  unfold in_flight. rewrite Hh, Ht. reflexivity.
Qed.

End SubmissionProperties.

(** C7, as stated, fails: two calls of [execute] on the operator
    [SparkSubmitOperator(application='job.jar', ...)] are both served by the
    hook object 0, the only one constructed. *)
Lemma second_execute_reuses_hook :
  submit_targets
    (calls (execute_all no_alternate plain_render tool_exits_zero [[]; []]
                        (fresh job_jar_operator))) = [0; 0] /\
  List.length
    (constructions
       (calls (execute_all no_alternate plain_render tool_exits_zero [[]; []]
                           (fresh job_jar_operator)))) = 1 /\
  ~ NoDup
      (submit_targets
         (calls (execute_all no_alternate plain_render tool_exits_zero
                             [[]; []] (fresh job_jar_operator)))).
Proof.
  split; [reflexivity | split; [reflexivity |]].
  intros H. inversion H as [| x l Hin _]; subst.
  apply Hin. left. reflexivity.
Qed.

(** C4: the hook [_get_hook] constructs for an operator built by [__init__]
    receives, for each of [files], [jars], [packages], [exclude_packages] and
    [repositories], the very string [__init__] was given, and [None] when the
    parameter was omitted or was [None]; the constructor call is the only
    call made. *)
Theorem list_fields_reach_hook_verbatim (kw : InitKwargs) (n : nat)
    (cs : list Call) (os : list OsEvent) :
  match _get_hook (mkState (__init__ kw) n cs os) with
  | (inr h, s') =>
      calls s' = cs ++ [CallInit (hook_id h) (hook_kwargs h)] /\
      verbatim (kw_files kw) (hk_files (hook_kwargs h)) /\
      verbatim (kw_jars kw) (hk_jars (hook_kwargs h)) /\
      verbatim (kw_packages kw) (hk_packages (hook_kwargs h)) /\
      verbatim (kw_exclude_packages kw) (hk_exclude_packages (hook_kwargs h)) /\
      verbatim (kw_repositories kw) (hk_repositories (hook_kwargs h))
  | (inl _, _) => False
  end.
Proof.
  rewrite _get_hook_eq; cbn [hook_kwargs hook_id calls].
  split; [reflexivity |].
  unfold verbatim; simpl.
  destruct (kw_files kw) as [[?|]|], (kw_jars kw) as [[?|]|],
    (kw_packages kw) as [[?|]|], (kw_exclude_packages kw) as [[?|]|],
    (kw_repositories kw) as [[?|]|]; simpl; repeat split.
Qed.

(** C5: two calls of [_get_hook] made while the stored fields are the same
    construct their hooks with the same value for every keyword, namely the
    attribute the keyword is bound to. *)
Theorem get_hook_is_deterministic (s1 s2 : State) :
  same_configuration (self s1) (self s2) ->
  received (_get_hook s1) = Some (_get_hook_kwargs (self s1)) /\
  received (_get_hook s2) = Some (_get_hook_kwargs (self s1)) /\
  constructions (calls_since s1 (snd (_get_hook s1))) =
    [(next_id s1, _get_hook_kwargs (self s1))] /\
  constructions (calls_since s2 (snd (_get_hook s2))) =
    [(next_id s2, _get_hook_kwargs (self s1))].
Proof.
  intros H. apply same_configuration_kwargs in H.
  rewrite !_get_hook_eq. unfold received, calls_since; simpl.
  rewrite !skipn_length_app, H. repeat split; reflexivity.
Qed.

(** C8: when no submission is in flight, [on_kill] returns without raising
    and sends no termination signal, and the configuration is untouched.  If
    the operator already stores a hook (in particular one whose controller is
    in a terminal state) the operator and the identity counter are exactly as
    before; if it stores none (no [execute] yet) the one effect is that the
    hook [_get_hook] constructs, idle, is stored in [_hook]. *)
Theorem on_kill_without_submission_is_safe (s : State) :
  in_flight s = false ->
  fst (on_kill s) = inr tt /\
  os_events (snd (on_kill s)) = os_events s /\
  signals (os_events (snd (on_kill s))) = signals (os_events s) /\
  same_configuration (self s) (self (snd (on_kill s))) /\
  match _hook (self s) with
  | Some h =>
      self (snd (on_kill s)) = self s /\
      next_id (snd (on_kill s)) = next_id s
  | None =>
      self (snd (on_kill s)) =
        with_hook
          (Some (mkHook (next_id s) (_get_hook_kwargs (self s)) IDLE))
          (self s)
  end.
Proof.
  intros Hidle.
  destruct (on_kill_effect s) as (Hr & _ & Hos & Hself).
  rewrite Hidle, app_nil_r in Hos.
  split; [exact Hr | split; [exact Hos | split; [rewrite Hos; reflexivity |]]].
  unfold in_flight in Hidle.
  destruct (_hook (self s)) as [h|] eqn:E.
  - rewrite Hidle in Hself. destruct Hself as [Hs Hn].
    rewrite (with_hook_stored _ E) in Hs.
    rewrite Hs.
    split; [apply same_configuration_refl | split; [reflexivity | exact Hn]].
  - destruct Hself as [Hs _]. rewrite Hs.
    split; [apply with_hook_configuration | reflexivity].
Qed.

(** C9: for every call of [__init__], an omitted [name] makes the hook
    receive ['arrow-spark'], which is not ['airflow-spark']; an omitted
    [application] is the empty string, an omitted [conn_id] is
    ['spark_default'], an omitted [status_poll_interval] is 1, an omitted
    [verbose] is [False], and every other omitted parameter is [None]. *)
Theorem omitted_parameters_take_defaults (kw : InitKwargs) :
  defaults_to (option_map Some (kw_name kw)) (Some "arrow-spark")
    (option_map hk_name (received (_get_hook (fresh (__init__ kw))))) /\
  "arrow-spark" <> "airflow-spark" /\
  defaults_to (kw_name kw) "arrow-spark" (_name (__init__ kw)) /\
  defaults_to (kw_application kw) "" (_application (__init__ kw)) /\
  defaults_to (kw_conn_id kw) "spark_default" (_conn_id (__init__ kw)) /\
  defaults_to (kw_status_poll_interval kw) 1%Z
    (_status_poll_interval (__init__ kw)) /\
  defaults_to (kw_verbose kw) false (_verbose (__init__ kw)) /\
  defaults_to (kw_conf kw) None (_conf (__init__ kw)) /\
  defaults_to (kw_files kw) None (_files (__init__ kw)) /\
  defaults_to (kw_py_files kw) None (_py_files (__init__ kw)) /\
  defaults_to (kw_archives kw) None (_archives (__init__ kw)) /\
  defaults_to (kw_driver_class_path kw) None
    (_driver_class_path (__init__ kw)) /\
  defaults_to (kw_jars kw) None (_jars (__init__ kw)) /\
  defaults_to (kw_java_class kw) None (_java_class (__init__ kw)) /\
  defaults_to (kw_packages kw) None (_packages (__init__ kw)) /\
  defaults_to (kw_exclude_packages kw) None
    (_exclude_packages (__init__ kw)) /\
  defaults_to (kw_repositories kw) None (_repositories (__init__ kw)) /\
  defaults_to (kw_total_executor_cores kw) None
    (_total_executor_cores (__init__ kw)) /\
  defaults_to (kw_executor_cores kw) None (_executor_cores (__init__ kw)) /\
  defaults_to (kw_executor_memory kw) None (_executor_memory (__init__ kw)) /\
  defaults_to (kw_driver_memory kw) None (_driver_memory (__init__ kw)) /\
  defaults_to (kw_keytab kw) None (_keytab (__init__ kw)) /\
  defaults_to (kw_principal kw) None (_principal (__init__ kw)) /\
  defaults_to (kw_proxy_user kw) None (_proxy_user (__init__ kw)) /\
  defaults_to (kw_num_executors kw) None (_num_executors (__init__ kw)) /\
  defaults_to (kw_application_args kw) None
    (_application_args (__init__ kw)) /\
  defaults_to (kw_env_vars kw) None (_env_vars (__init__ kw)) /\
  defaults_to (kw_spark_binary kw) None (_spark_binary (__init__ kw)).
Proof.
  unfold defaults_to, received; simpl.
  repeat match goal with
         | |- _ /\ _ => split
         | |- match ?x with _ => _ end => destruct x; simpl; reflexivity
         end.
  - destruct (kw_name kw); reflexivity.
  - discriminate.
Qed.

(** ** Instances *)

(** [SparkSubmitOperator()] has an empty application reference, and its
    first [execute] raises [ConfigError] without starting a process. *)
Lemma empty_application_is_config_error_witness :
  _application (self (fresh default_operator)) = "" /\
  no_alternate (serving_kwargs (fresh default_operator)) = false /\
  fst (execute no_alternate plain_render tool_exits_zero []
               (fresh default_operator)) = inl ConfigError /\
  os_events (snd (execute no_alternate plain_render tool_exits_zero []
                          (fresh default_operator))) = [] /\
  build no_alternate plain_render (serving_kwargs (fresh default_operator))
        (_application (self (fresh default_operator))) = inl ConfigError.
Proof.
  split; [reflexivity | split; [reflexivity |]].
  apply (@empty_application_is_config_error no_alternate plain_render
           tool_exits_zero [] (fresh default_operator)); reflexivity.
Defined.

(** Two calls of [_get_hook] in a row on the same operator: the second hook
    is constructed with the arguments of the first. *)
Lemma get_hook_is_deterministic_witness :
  same_configuration
    (self (fresh job_jar_operator))
    (self (snd (_get_hook (fresh job_jar_operator)))) /\
  received (_get_hook (fresh job_jar_operator)) =
    Some (_get_hook_kwargs job_jar_operator) /\
  received (_get_hook (snd (_get_hook (fresh job_jar_operator)))) =
    Some (_get_hook_kwargs job_jar_operator) /\
  constructions
    (calls_since (fresh job_jar_operator)
                 (snd (_get_hook (fresh job_jar_operator)))) =
    [(0, _get_hook_kwargs job_jar_operator)] /\
  constructions
    (calls_since (snd (_get_hook (fresh job_jar_operator)))
                 (snd (_get_hook (snd (_get_hook (fresh job_jar_operator)))))) =
    [(1, _get_hook_kwargs job_jar_operator)].
Proof.
  split; [unfold same_configuration; simpl; repeat split |].
  apply (@get_hook_is_deterministic (fresh job_jar_operator)
           (snd (_get_hook (fresh job_jar_operator)))).
  unfold same_configuration; simpl; repeat split.
Defined.

(** [on_kill] before any [execute]: nothing is in flight, nothing is
    signalled, and the idle hook 0 is stored. *)
Lemma on_kill_without_submission_is_safe_witness :
  in_flight (fresh job_jar_operator) = false /\
  fst (on_kill (fresh job_jar_operator)) = inr tt /\
  os_events (snd (on_kill (fresh job_jar_operator))) = [] /\
  signals (os_events (snd (on_kill (fresh job_jar_operator)))) = [] /\
  same_configuration job_jar_operator
    (self (snd (on_kill (fresh job_jar_operator)))) /\
  self (snd (on_kill (fresh job_jar_operator))) =
    with_hook (Some (mkHook 0 (_get_hook_kwargs job_jar_operator) IDLE))
              job_jar_operator.
Proof.
  split; [reflexivity |].
  apply (@on_kill_without_submission_is_safe (fresh job_jar_operator)).
  reflexivity.
Defined.

(** With a submission in flight [on_kill] does signal: the hypothesis of
    [on_kill_without_submission_is_safe] is needed. *)
Example on_kill_signals_running_submission :
  in_flight running_state = true /\
  signals (os_events (snd (on_kill running_state))) = [0] /\
  option_map hook_state (_hook (self (snd (on_kill running_state)))) =
    Some (Terminal KILLED).
Proof.
  repeat split; reflexivity.
Qed.

(** Scenario B of the specification, at the operator's boundary: the
    [packages] string reaches the hook unsplit. *)
Example packages_reach_hook_unsplit :
  option_map hk_packages (received (_get_hook (fresh job_jar_operator))) =
    Some (Some "org.a:b:1.0,org.c:d:2.0").
Proof. reflexivity. Qed.

(** * Further properties of the operator *)

Lemma method_calls_app (l1 l2 : list Call) :
  method_calls (l1 ++ l2) = method_calls l1 ++ method_calls l2.
Proof.
  induction l1 as [|c l1 IH]; simpl; [reflexivity|].
  destruct c; simpl; rewrite IH; reflexivity.
Qed.

Lemma same_configuration_application (o o' : SparkSubmitOperator) :
  same_configuration o o' -> _application o' = _application o.
Proof.
  unfold same_configuration. intros H. apply H.
Qed.

Lemma on_kill_configuration (s : State) :
  same_configuration (self s) (self (snd (on_kill s))) /\
  exists h', _hook (self (snd (on_kill s))) = Some h' /\
             hook_id h' = serving_id s.
Proof.
  destruct (on_kill_effect s) as (_ & _ & _ & H). unfold serving_id.
  destruct (_hook (self s)) as [h|]; destruct H as [-> _].
  - split; [apply with_hook_configuration |].
    eexists; split; [reflexivity |].
    destruct (is_running (hook_state h)); reflexivity.
  - split; [apply with_hook_configuration |].
    eexists; split; reflexivity.
Qed.

Section HostProperties.

Variable alternate_identifier : HookKwargs -> bool.
Variable render :
  HookKwargs -> string -> list string * list (string * string).
Variable tool :
  nat -> list string -> list (string * string) -> ToolOutcome.

Local Abbreviation hook_submit := (hook_submit alternate_identifier render tool).
Local Abbreviation execute := (execute alternate_identifier render tool).
Local Abbreviation invoke := (invoke alternate_identifier render tool).
Local Abbreviation invoke_all :=
  (invoke_all alternate_identifier render tool).

(** What one call of either method does to the log of calls, to the stored
    hook and to the configuration. *)
Lemma invoke_effect (m : MethodCall) (s : State) :
  calls (snd (invoke m s)) =
    calls s
    ++ match _hook (self s) with
       | None => [CallInit (next_id s) (_get_hook_kwargs (self s))]
       | Some _ => []
       end
    ++ [hook_call (serving_id s) (_application (self s)) m] /\
  (exists h', _hook (self (snd (invoke m s))) = Some h' /\
              hook_id h' = serving_id s) /\
  same_configuration (self s) (self (snd (invoke m s))).
Proof.
  destruct m as [context|]; simpl.
  - destruct (execute_effect alternate_identifier render tool context s)
      as (Hc & (h' & Hh & Hid & _) & Hcfg & _).
    split; [exact Hc | split; [eauto | exact Hcfg]].
  - destruct (on_kill_effect s) as (_ & Hc & _).
    destruct (on_kill_configuration s) as (Hcfg & Hh).
    split; [exact Hc | split; [exact Hh | exact Hcfg]].
Qed.

Lemma invoke_all_calls (ms : list MethodCall) :
  forall s : State,
    exists new : list Call,
      calls (invoke_all ms s) = calls s ++ new /\
      method_calls new =
        map (hook_call (serving_id s) (_application (self s))) ms /\
      constructions new =
        match _hook (self s), ms with
        | None, _ :: _ => [(next_id s, _get_hook_kwargs (self s))]
        | _, _ => []
        end /\
      same_configuration (self s) (self (invoke_all ms s)).
Proof.
  induction ms as [|m rest IH]; intros s.
  - exists []. simpl. rewrite app_nil_r.
    destruct (_hook (self s));
      (split; [reflexivity | split; [reflexivity | split;
        [reflexivity | apply same_configuration_refl]]]).
  - change (invoke_all (m :: rest) s)
      with (invoke_all rest (snd (invoke m s))).
    destruct (invoke_effect m s) as (Hc & (h' & Hh & Hid) & Hcfg).
    destruct (IH (snd (invoke m s))) as (new & Hn & Hm & Hk & Hcfg').
    assert (Hserving : serving_id (snd (invoke m s)) = serving_id s).
    { unfold serving_id at 1. rewrite Hh. exact Hid. }
    rewrite Hserving, (same_configuration_application Hcfg) in Hm.
    rewrite Hh in Hk.
    eexists. split; [| split; [| split]].
    + rewrite Hn, Hc, <- !app_assoc. reflexivity.
    + rewrite !method_calls_app, Hm.
      destruct (_hook (self s)), m; reflexivity.
    + rewrite !constructions_app, Hk.
      destruct (_hook (self s)), m, rest; reflexivity.
    + eapply same_configuration_trans; eassumption.
Qed.

(** X1: over any sequence of [execute] and [on_kill] calls on one operator
    instance, each call of the operator makes exactly one call on the hook
    ([submit] with the unchanged [_application], respectively [on_kill]), in
    the same order and always on the same hook object; at most one hook is
    constructed, by the first call and only if none is stored; and the
    configuration attributes end as they began. *)
Theorem one_hook_serves_every_call (ms : list MethodCall) (s : State) :
  method_calls (calls_since s (invoke_all ms s)) =
    map (hook_call (serving_id s) (_application (self s))) ms /\
  constructions (calls_since s (invoke_all ms s)) =
    match _hook (self s), ms with
    | None, _ :: _ => [(next_id s, _get_hook_kwargs (self s))]
    | _, _ => []
    end /\
  same_configuration (self s) (self (invoke_all ms s)).
Proof.
  destruct (invoke_all_calls ms s) as (new & Hn & Hm & Hk & Hcfg).
  unfold calls_since. rewrite Hn, skipn_length_app.
  split; [exact Hm | split; [exact Hk | exact Hcfg]].
Qed.

(** X2: [execute] handles nothing itself: it returns or raises exactly what
    [submit] returns or raises on the serving hook, with [_application] as
    argument, and the hook is stored before [submit] runs, so it is still
    stored when [submit] raises. *)
Theorem execute_outcome_is_submit_outcome (context : Context) (s : State) :
  fst (execute context s) =
    fst (fst (hook_submit (serving_hook s) (_application (self s))
                          (os_events s))) /\
  os_events (snd (execute context s)) =
    snd (hook_submit (serving_hook s) (_application (self s))
                     (os_events s)) /\
  _hook (self (snd (execute context s))) =
    Some (snd (fst (hook_submit (serving_hook s) (_application (self s))
                                (os_events s)))).
Proof.
  rewrite execute_eq. unfold serving_hook.
  destruct (_hook (self s)) as [h|] eqn:E.
  - rewrite (@self_hook_submit_stored alternate_identifier render tool
               (_application (self s)) s h E).
    repeat split.
  - rewrite (@self_hook_submit_stored alternate_identifier render tool
               (_application (self s)) (after_get_hook s)
               (mkHook (next_id s) (_get_hook_kwargs (self s)) IDLE)
               eq_refl).
    repeat split.
Qed.

(** X3: once a hook is stored, [execute] depends on the operator only through
    [_hook] and [_application], and [on_kill] only through [_hook]: whatever
    the other attributes have become since the hook was constructed, the
    outcome, the calls made, the operating-system events and the stored hook
    are the same.  A configuration attribute changed after the first use
    never reaches the hook. *)
Theorem later_changes_do_not_reach_the_hook (context : Context) (s : State)
    (o' : SparkSubmitOperator) (h : SparkSubmitHook) :
  _hook (self s) = Some h ->
  _hook o' = Some h ->
  _application o' = _application (self s) ->
  (fst (execute context (with_self o' s)) = fst (execute context s) /\
   calls (snd (execute context (with_self o' s))) =
     calls (snd (execute context s)) /\
   os_events (snd (execute context (with_self o' s))) =
     os_events (snd (execute context s)) /\
   _hook (self (snd (execute context (with_self o' s)))) =
     _hook (self (snd (execute context s)))) /\
  (fst (on_kill (with_self o' s)) = fst (on_kill s) /\
   calls (snd (on_kill (with_self o' s))) = calls (snd (on_kill s)) /\
   os_events (snd (on_kill (with_self o' s))) =
     os_events (snd (on_kill s)) /\
   _hook (self (snd (on_kill (with_self o' s)))) =
     _hook (self (snd (on_kill s)))).
Proof.
  intros E E' Happ. split.
  - rewrite !execute_eq. cbn [with_self self]. rewrite E, E', Happ.
    rewrite (@self_hook_submit_stored alternate_identifier render tool
               (_application (self s)) s h E).
    rewrite (@self_hook_submit_stored alternate_identifier render tool
               (_application (self s)) (with_self o' s) h E').
    repeat split.
  - rewrite !on_kill_eq. cbn [with_self self]. rewrite E, E'.
    rewrite (@self_hook_on_kill_stored s h E).
    rewrite (@self_hook_on_kill_stored (with_self o' s) h E').
    repeat split.
Qed.

End HostProperties.

(** X4: the keyword arguments of [_get_hook] together with [_application]
    determine the whole configuration: two operators whose hooks would be
    constructed alike and whose application references agree have the same
    value in every attribute [__init__] stores.  No attribute is dropped or
    merged with another on the way to the hook. *)
Theorem hook_arguments_determine_configuration (o1 o2 : SparkSubmitOperator) :
  _get_hook_kwargs o1 = _get_hook_kwargs o2 ->
  _application o1 = _application o2 ->
  same_configuration o1 o2.
Proof.
  intros H Happ.
  pose proof (f_equal hk_conf H) as H01.
  pose proof (f_equal hk_conn_id H) as H02.
  pose proof (f_equal hk_files H) as H03.
  pose proof (f_equal hk_py_files H) as H04.
  pose proof (f_equal hk_archives H) as H05.
  pose proof (f_equal hk_driver_class_path H) as H06.
  pose proof (f_equal hk_jars H) as H07.
  pose proof (f_equal hk_java_class H) as H08.
  pose proof (f_equal hk_packages H) as H09.
  pose proof (f_equal hk_exclude_packages H) as H10.
  pose proof (f_equal hk_repositories H) as H11.
  pose proof (f_equal hk_total_executor_cores H) as H12.
  pose proof (f_equal hk_executor_cores H) as H13.
  pose proof (f_equal hk_executor_memory H) as H14.
  pose proof (f_equal hk_driver_memory H) as H15.
  pose proof (f_equal hk_keytab H) as H16.
  pose proof (f_equal hk_principal H) as H17.
  pose proof (f_equal hk_proxy_user H) as H18.
  pose proof (f_equal hk_name H) as H19.
  pose proof (f_equal hk_num_executors H) as H20.
  pose proof (f_equal hk_status_poll_interval H) as H21.
  pose proof (f_equal hk_application_args H) as H22.
  pose proof (f_equal hk_env_vars H) as H23.
  pose proof (f_equal hk_verbose H) as H24.
  pose proof (f_equal hk_spark_binary H) as H25.
  clear H. simpl in *.
  unfold same_configuration; repeat split; symmetry; assumption.
Qed.

Lemma get_hook_times_calls (n : nat) :
  forall s : State,
    exists new : list Call,
      calls (get_hook_times n s) = calls s ++ new /\
      constructions new =
        map (fun i => (i, _get_hook_kwargs (self s))) (seq (next_id s) n) /\
      method_calls new = [] /\
      self (get_hook_times n s) = self s.
Proof.
  induction n as [|n IH]; intros s.
  - exists []. simpl. rewrite app_nil_r. repeat split.
  - change (get_hook_times (S n) s)
      with (get_hook_times n (snd (_get_hook s))).
    rewrite _get_hook_eq. cbn [snd].
    match goal with
    | |- context [get_hook_times n ?s1] =>
        destruct (IH s1) as (new & Hn & Hk & Hm & Hs)
    end.
    cbn [calls self next_id] in Hn, Hk, Hs.
    eexists. split; [| split; [| split]].
    + rewrite Hn, <- app_assoc. reflexivity.
    + rewrite constructions_app, Hk. reflexivity.
    + rewrite method_calls_app, Hm. reflexivity.
    + exact Hs.
Qed.

(** X5: [_get_hook] itself caches nothing: [n] direct calls construct [n]
    hooks, each a new object (their identities are the next [n] unused ones)
    and each with the keyword arguments of the current attributes; no method
    of a hook is called and the operator, [_hook] included, is left exactly as
    it was. *)
Theorem get_hook_never_caches (n : nat) (s : State) :
  constructions (calls_since s (get_hook_times n s)) =
    map (fun i => (i, _get_hook_kwargs (self s))) (seq (next_id s) n) /\
  NoDup (map fst (constructions (calls_since s (get_hook_times n s)))) /\
  method_calls (calls_since s (get_hook_times n s)) = [] /\
  self (get_hook_times n s) = self s.
Proof.
  destruct (get_hook_times_calls n s) as (new & Hn & Hk & Hm & Hs).
  unfold calls_since. rewrite Hn, skipn_length_app.
  split; [exact Hk | split; [| split; [exact Hm | exact Hs]]].
  rewrite Hk, map_map. simpl. rewrite map_id. apply seq_NoDup.
Qed.

(** X6: every name in [template_fields] is an attribute [__init__] assigns,
    no name occurs twice in either list, and the attributes left out of
    templating are exactly the thirteen listed, [_hook] and [_conn_id] among
    them. *)
Theorem template_fields_are_assigned_attributes :
  incl template_fields assigned_attributes /\
  NoDup template_fields /\
  NoDup assigned_attributes /\
  filter (fun name => negb (mem name template_fields)) assigned_attributes =
    ["_archives"; "_java_class"; "_repositories"; "_total_executor_cores";
     "_executor_cores"; "_executor_memory"; "_driver_memory";
     "_num_executors"; "_status_poll_interval"; "_verbose"; "_spark_binary";
     "_hook"; "_conn_id"].
Proof.
  split; [| split; [| split; [| reflexivity]]].
  - intros name Hin.
    assert (Hmem : mem name assigned_attributes = true).
    { unfold template_fields in Hin. simpl in Hin.
      repeat match goal with
             | H : _ \/ _ |- _ => destruct H as [<- | H]; [reflexivity |]
             end.
      contradiction. }
    unfold mem in Hmem. apply existsb_exists in Hmem.
    destruct Hmem as (x & Hx & Heq). apply String.eqb_eq in Heq.
    subst. exact Hx.
  - apply (NoDup_count_occ' string_dec). intros x Hin.
    unfold template_fields in Hin. simpl in Hin.
    repeat match goal with
           | H : _ \/ _ |- _ => destruct H as [<- | H]; [reflexivity |]
           end.
    contradiction.
  - apply (NoDup_count_occ' string_dec). intros x Hin.
    unfold assigned_attributes in Hin. simpl in Hin.
    repeat match goal with
           | H : _ \/ _ |- _ => destruct H as [<- | H]; [reflexivity |]
           end.
    contradiction.
Qed.

(** ** Instances of the further properties *)

(** After the first [execute] of [job_jar_operator], renaming the job and
    dropping [packages] changes nothing in what the next calls do. *)
Lemma later_changes_do_not_reach_the_hook_witness :
  _hook (self served_state) =
    Some (mkHook 0 (_get_hook_kwargs job_jar_operator) (Terminal SUCCEEDED)) /\
  _hook renamed_operator =
    Some (mkHook 0 (_get_hook_kwargs job_jar_operator) (Terminal SUCCEEDED)) /\
  _application renamed_operator = _application (self served_state) /\
  _name renamed_operator <> _name (self served_state) /\
  calls (snd (execute no_alternate plain_render tool_exits_zero []
                      (with_self renamed_operator served_state))) =
    calls (snd (execute no_alternate plain_render tool_exits_zero []
                        served_state)).
Proof.
  split; [reflexivity | split; [reflexivity | split; [reflexivity |]]].
  split; [discriminate |].
  apply (@later_changes_do_not_reach_the_hook no_alternate plain_render
           tool_exits_zero [] served_state renamed_operator
           (mkHook 0 (_get_hook_kwargs job_jar_operator)
                   (Terminal SUCCEEDED)));
    reflexivity.
Defined.

(** The operator before and after its first [execute]: same hook arguments,
    same application reference, hence the same configuration. *)
Lemma hook_arguments_determine_configuration_witness :
  _get_hook_kwargs job_jar_operator = _get_hook_kwargs (self served_state) /\
  _application job_jar_operator = _application (self served_state) /\
  same_configuration job_jar_operator (self served_state).
Proof.
  split; [reflexivity | split; [reflexivity |]].
  apply (@hook_arguments_determine_configuration job_jar_operator
           (self served_state)); reflexivity.
Defined.
